(** * Shallow embedding of the DeepSeek chatbot session logic.

    Sources embedded:
    - [deepseek_chatbot/core.py]: [get_token_from_env];
    - [deepseek_chatbot/app.py]: the chat part of [main] (one Streamlit run
      in which the user may submit a message);
    - [deepseek_chatbot/cli.py]: [query_deepseek];
    - [deepseek_cli.py]: the legacy [query_deepseek] with [get_credentials].

    Python objects returned by the Azure client are modelled with explicit
    attribute presence: [Absent] is a missing attribute (hasattr is False),
    [Present None] an attribute holding Python [None]. *)

From Stdlib Require Import String List Bool ZArith Lia.
Import ListNotations.
Open Scope string_scope.

(** ** Python values *)

(** Attribute presence, as tested by [hasattr]. *)
Inductive attr (A : Type) : Type :=
| Absent : attr A
| Present : A -> attr A.
Arguments Absent {A}.
Arguments Present {A} _.

(** [x or ""] for a value that is a [str] or [None]. *)
Definition or_empty (o : option string) : string :=
  match o with
  | Some s => s
  | None => ""
  end.

(** Truthiness of a [str]-or-[None] value. *)
Definition truthy_str (o : option string) : bool :=
  match o with
  | Some s => negb (String.eqb s "")
  | None => false
  end.

(** [str(x)] for a value that is a [str] or [None]. *)
Definition py_str (o : option string) : string :=
  match o with
  | Some s => s
  | None => "None"
  end.

(** ** Response objects of the completion client *)

(** [choices[0].delta] of a stream chunk. *)
Record Delta := { delta_content : attr (option string) }.

(** [choices[0].message] of a blocking response. *)
Record Message := { message_content : attr (option string) }.

(** One element of [choices]; the attribute is [None] or an object. *)
Record Choice := {
  choice_delta : attr (option Delta);
  choice_message : attr (option Message)
}.

(** A chunk of a streaming response; [choices] is a list or [None]. *)
Record Chunk := { chunk_choices : attr (option (list Choice)) }.

(** A blocking response. *)
Record Response := { response_choices : attr (option (list Choice)) }.

(** A streaming response, as an iterator: the chunks it yields, and whether
    the next call to [__next__] after them raises instead of stopping. *)
Record Stream := {
  stream_chunks : list Chunk;
  stream_raises : bool
}.

(** The result of calling the remote [complete]: it raises, or returns a
    Python value ([None] modelled as [None]). *)
Inductive CallResult (A : Type) : Type :=
| Raises : CallResult A
| Returns : option A -> CallResult A.
Arguments Raises {A}.
Arguments Returns {A} _.

(** Wire messages built by the front ends. *)
Inductive ApiMessage : Type :=
| UserMessage : option string -> ApiMessage
| AssistantMessage : option string -> ApiMessage.

(** [DeepSeekChatbot.get_response] / [client.complete]: an opaque remote call
    from the message list and [max_tokens], for either value of [stream]. *)
Record Client := {
  complete_stream : list ApiMessage -> Z -> CallResult Stream;
  complete_block : list ApiMessage -> Z -> CallResult Response
}.

(** The literal fallback string of the front ends. *)
Definition error_message : string := "Error getting response from the model.".

(** ** [core.get_token_from_env] *)

(** [os.environ], as an association list with unique keys. *)
Definition Environ := list (string * string).

(** [os.environ.get(k)]. *)
Fixpoint environ_get (env : Environ) (k : string) : option string :=
  match env with
  | [] => None
  | (k', v) :: rest => if String.eqb k k' then Some v else environ_get rest k
  end.

(** Python's [a or b]: [a] if it is truthy, else [b]. *)
Definition py_or (a b : option string) : option string :=
  if truthy_str a then a else b.

(** [return os.environ.get("GITHUB_TOKEN") or os.environ.get("AZURE_KEY")] *)
Definition get_token_from_env (env : Environ) : option string :=
  py_or (environ_get env "GITHUB_TOKEN") (environ_get env "AZURE_KEY").

(** ** Streaming extraction *)

(** [app.py], lines 146-154: the guard uses [delta is not None]; the
    content of a chunk whose guard fails is [""]. *)
Definition app_chunk_content (chunk : Chunk) : string :=
  match chunk_choices chunk with
  | Present (Some (c :: _)) =>
      match choice_delta c with
      | Present (Some d) =>
          match delta_content d with
          | Present o => or_empty o
          | Absent => ""
          end
      | _ => ""
      end
  | _ => ""
  end.

(** [app.py], lines 140-157: [full_response += content] after the guard,
    for every chunk. *)
Fixpoint app_stream_loop (full_response : string) (chunks : list Chunk)
  : string :=
  match chunks with
  | [] => full_response
  | chunk :: rest => app_stream_loop (full_response ++ app_chunk_content chunk) rest
  end.

(** [cli.py], lines 47-55: the guard tests the truthiness of the delta (an
    object, hence truthy when not [None]); [Some content] when the guard
    holds, [None] when it fails. *)
Definition cli_chunk_guard (chunk : Chunk) : option string :=
  match chunk_choices chunk with
  | Present (Some (c :: _)) =>
      match choice_delta c with
      | Present (Some d) =>
          match delta_content d with
          | Present o => Some (or_empty o)
          | Absent => None
          end
      | _ => None
      end
  | _ => None
  end.

(** [cli.py], lines 44-57: [full_response += content] only inside the
    guard. *)
Fixpoint cli_stream_loop (full_response : string) (chunks : list Chunk)
  : string :=
  match chunks with
  | [] => full_response
  | chunk :: rest =>
      match cli_chunk_guard chunk with
      | Some content => cli_stream_loop (full_response ++ content) rest
      | None => cli_stream_loop full_response rest
      end
  end.

(** ** The graphical session ([app.py], [main]) *)

(** An entry of [st.session_state.messages]: [{"role": ..., "content": ...}].
    The content of an assistant entry may be Python [None]. *)
Record Turn := { role : string; content : option string }.

Definition user_turn (text : string) : Turn :=
  {| role := "user"; content := Some text |}.

Definition assistant_turn (c : option string) : Turn :=
  {| role := "assistant"; content := c |}.

(** [app.py], lines 126-131: the API messages built from the session, in
    order; entries of other roles are skipped. [UserMessage(None)] and
    [AssistantMessage(None)] raise [AttributeError] (the SDK's model
    constructor reads a non-string argument as a mapping): the result [None]
    is that exception. *)
Fixpoint prepare_api_messages (messages : list Turn) : option (list ApiMessage) :=
  match messages with
  | [] => Some []
  | msg :: rest =>
      if String.eqb (role msg) "user" then
        match content msg with
        | None => None
        | Some c => option_map (cons (UserMessage (Some c))) (prepare_api_messages rest)
        end
      else if String.eqb (role msg) "assistant" then
        match content msg with
        | None => None
        | Some c => option_map (cons (AssistantMessage (Some c))) (prepare_api_messages rest)
        end
      else prepare_api_messages rest
  end.

(** [app.py], lines 142-165: [final_response] once [get_response] has
    returned [response] in streaming mode. *)
Definition app_stream_response (response : option Stream) : option string :=
  match response with
  | None => Some error_message
  | Some s =>
      if stream_raises s then Some error_message
      else Some (app_stream_loop "" (stream_chunks s))
  end.

(** [app.py], lines 169-184: [final_response] once [get_response] has
    returned [response] in blocking mode; [message.content] is taken as it
    is, [None] included. *)
Definition app_block_response (response : option Response) : option string :=
  match response with
  | None => Some error_message
  | Some r =>
      match response_choices r with
      | Present (Some (c :: _)) =>
          match choice_message c with
          | Present (Some m) =>
              match message_content m with
              | Present o => o
              | Absent => Some error_message
              end
          | _ => Some error_message
          end
      | _ => Some error_message
      end
  end.

(** How one run of [main] ends: normally, or by an exception escaping it.
    Either way [st.session_state.messages] keeps the list it holds then. *)
Inductive Outcome : Type :=
| Finished : list Turn -> Outcome
| Raised : list Turn -> Outcome.

Definition outcome_messages (o : Outcome) : list Turn :=
  match o with
  | Finished m => m
  | Raised m => m
  end.

(** [app.py], lines 115-187, for an authenticated session: [user_input] is
    the value of [st.chat_input] ([None] when nothing was submitted) and
    [messages] is [st.session_state.messages]. Building the API messages
    and the call to [get_response] are outside any [try]: when they raise,
    the exception leaves [main] after the user entry was appended. *)
Definition main_chat (chatbot : Client) (streaming_enabled : bool)
    (max_tokens : Z) (user_input : option string) (messages : list Turn)
  : Outcome :=
  if truthy_str user_input then
    let messages1 := (messages ++ [user_turn (or_empty user_input)])%list in
    match prepare_api_messages messages1 with
    | None => Raised messages1
    | Some api_messages =>
      let final_response :=
        if streaming_enabled then
          match complete_stream chatbot api_messages max_tokens with
          | Raises => None
          | Returns response => Some (app_stream_response response)
          end
        else
          match complete_block chatbot api_messages max_tokens with
          | Raises => None
          | Returns response => Some (app_block_response response)
          end in
      match final_response with
      | None => Raised messages1
      | Some f => Finished (messages1 ++ [assistant_turn f])%list
      end
    end
  else Finished messages.

(** Sessions reachable from the empty one by runs of [main]; the list is
    kept in [st.session_state] also after a run that raised. *)
Inductive reachable : list Turn -> Prop :=
| reachable_nil : reachable []
| reachable_run : forall chatbot streaming_enabled max_tokens user_input messages,
    reachable messages ->
    reachable (outcome_messages
                 (main_chat chatbot streaming_enabled max_tokens user_input messages)).

(** ** [cli.py], [query_deepseek] *)

(** How [query_deepseek] ends: with a return value, or with [sys.exit]. *)
Inductive QueryOutcome (R : Type) : Type :=
| QReturn : R -> QueryOutcome R
| QExit : Z -> QueryOutcome R.
Arguments QReturn {R} _.
Arguments QExit {R} _.

(** [cli.py], lines 31-78. The default [max_tokens] of [get_response] is
    1000. The inner [try] encloses both the call and the iteration;
    iterating over [None] raises [TypeError]. *)
Definition cli_query_deepseek (env : Environ) (chatbot : Client)
    (prompt : string) (stream : bool) : QueryOutcome (option string) :=
  let token := get_token_from_env env in
  if negb (truthy_str token) then QExit 1%Z
  else
    let messages := [UserMessage (Some prompt)] in
    if stream then
      match complete_stream chatbot messages 1000%Z with
      | Returns (Some s) =>
          if stream_raises s then QReturn None
          else QReturn (Some (cli_stream_loop "" (stream_chunks s)))
      | _ => QReturn None
      end
    else
      match complete_block chatbot messages 1000%Z with
      | Raises => QExit 1%Z
      | Returns None => QReturn None
      | Returns (Some r) =>
          match response_choices r with
          | Present (Some (c :: _)) =>
              match choice_message c with
              | Present (Some m) =>
                  match message_content m with
                  | Present (Some s) => QReturn (Some s)
                  | _ => QReturn None
                  end
              | _ => QReturn None
              end
          | _ => QReturn None
          end
      end.

(** ** [deepseek_cli.py], the legacy [query_deepseek] *)

(** [deepseek_cli.py], lines 24-41. *)
Definition get_credentials (env : Environ) : QueryOutcome string :=
  let token := py_or (environ_get env "GITHUB_TOKEN") (environ_get env "AZURE_KEY") in
  if truthy_str token then QReturn (or_empty token) else QExit 1%Z.

(** [deepseek_cli.py], lines 55-114. The inner [try] encloses the call and
    the iteration; in blocking mode [hasattr(None, "choices")] is False and
    [str(None)] is ["None"]. *)
Definition legacy_query_deepseek (env : Environ) (client : Client)
    (prompt : string) (stream : bool) : QueryOutcome string :=
  match get_credentials env with
  | QExit c => QExit c
  | QReturn _ =>
    let messages := [UserMessage (Some prompt)] in
    if stream then
      match complete_stream client messages 1000%Z with
      | Returns (Some s) =>
          if stream_raises s then QReturn error_message
          else QReturn (cli_stream_loop "" (stream_chunks s))
      | _ => QReturn error_message
      end
    else
      match complete_block client messages 1000%Z with
      | Raises => QExit 1%Z
      | Returns None => QReturn "No response from the model."
      | Returns (Some r) =>
          match response_choices r with
          | Present (Some (c :: _)) =>
              match choice_message c with
              | Present (Some m) =>
                  match message_content m with
                  | Present o => QReturn (py_str o)
                  | Absent => QReturn "No response from the model."
                  end
              | _ => QReturn "No response from the model."
              end
          | _ => QReturn "No response from the model."
          end
      end
  end.

(** ** [cli.py], interactive mode of [main] *)

Definition lower_ascii (a : Ascii.ascii) : Ascii.ascii :=
  let n := Ascii.nat_of_ascii a in
  if andb (Nat.leb 65 n) (Nat.leb n 90) then Ascii.ascii_of_nat (n + 32) else a.

(** [str.lower], on ASCII letters. *)
Fixpoint lower (s : string) : string :=
  match s with
  | EmptyString => EmptyString
  | String a rest => String (lower_ascii a) (lower rest)
  end.

(** [cli.py], lines 97-111: the interactive loop over the lines read (the
    end of the list is [EOFError]); the result is the outcome of each call
    to [query_deepseek(user_input, stream=True)]. [sys.exit] ends the
    process. *)
Fixpoint cli_interactive (env : Environ) (chatbot : Client)
    (inputs : list string) : list (QueryOutcome (option string)) :=
  match inputs with
  | [] => []
  | user_input :: rest =>
      if orb (String.eqb (lower user_input) "exit")
             (String.eqb (lower user_input) "quit")
      then []
      else
        match cli_query_deepseek env chatbot user_input true with
        | QExit c => [QExit c]
        | r => r :: cli_interactive env chatbot rest
        end
  end.

(** ** Reading the response fields *)

(** [choices[0].delta.content] of a chunk when every field on the way is
    present and the content is not [None]. *)
Definition chunk_delta_content (chunk : Chunk) : option string :=
  match chunk_choices chunk with
  | Present (Some (c :: _)) =>
      match choice_delta c with
      | Present (Some d) =>
          match delta_content d with
          | Present (Some s) => Some s
          | _ => None
          end
      | _ => None
      end
  | _ => None
  end.

(** [choices[0].message.content] of a blocking response when [choices] is a
    non-empty list, [choices[0].message] is an object and has a [content]
    attribute (which may hold [None]). *)
Definition response_message_content (r : Response) : option (option string) :=
  match response_choices r with
  | Present (Some (c :: _)) =>
      match choice_message c with
      | Present (Some m) =>
          match message_content m with
          | Present o => Some o
          | Absent => None
          end
      | _ => None
      end
  | _ => None
  end.

(** The wire message of one session entry whose role is user or assistant
    and whose content is a string (the entries [prepare_api_messages]
    converts without raising). *)
Definition turn_to_api (t : Turn) : ApiMessage :=
  if String.eqb (role t) "user" then UserMessage (content t)
  else AssistantMessage (content t).


(** ** Concrete inputs *)

Definition text_chunk (s : string) : Chunk :=
  {| chunk_choices :=
       Present (Some [{| choice_delta := Present (Some {| delta_content := Present (Some s) |});
                         choice_message := Absent |}]) |}.

Definition text_response (s : string) : Response :=
  {| response_choices :=
       Present (Some [{| choice_delta := Absent;
                         choice_message := Present (Some {| message_content := Present (Some s) |}) |}]) |}.

(** A remote call whose answer is [content] in blocking mode and the
    fragments [fragments] in streaming mode, whatever the request. *)
Definition fixed_client (content : string) (fragments : list string) : Client :=
  {| complete_stream := fun _ _ =>
       Returns (Some {| stream_chunks := map text_chunk fragments; stream_raises := false |});
     complete_block := fun _ _ => Returns (Some (text_response content)) |}.

(** A remote call that raises in both modes. *)
Definition failing_client : Client :=
  {| complete_stream := fun _ _ => Raises; complete_block := fun _ _ => Raises |}.

(** The text of the first message of a request. *)
Definition first_text (req : list ApiMessage) : string :=
  match req with
  | UserMessage (Some s) :: _ => s
  | AssistantMessage (Some s) :: _ => s
  | _ => ""
  end.

(** A remote call that answers with the text of the first message it is
    sent. *)
Definition echo_first_client : Client :=
  {| complete_stream := fun req _ =>
       Returns (Some {| stream_chunks := [text_chunk (first_text req)]; stream_raises := false |});
     complete_block := fun req _ => Returns (Some (text_response (first_text req))) |}.

(** A remote call whose stream yields ["Par"] and then raises, and whose
    blocking response has no [choices] attribute. *)
Definition broken_client : Client :=
  {| complete_stream := fun _ _ =>
       Returns (Some {| stream_chunks := [text_chunk "Par"]; stream_raises := true |});
     complete_block := fun _ _ => Returns (Some {| response_choices := Absent |}) |}.


(** A chunk whose delta is [None]. *)
Definition null_delta_chunk : Chunk :=
  {| chunk_choices :=
       Present (Some [{| choice_delta := Present None; choice_message := Absent |}]) |}.

Definition env_github : Environ := [("GITHUB_TOKEN", "ghp_x")].
Definition env_both : Environ := [("GITHUB_TOKEN", "ghp_x"); ("AZURE_KEY", "az_y")].
Definition env_azure : Environ := [("GITHUB_TOKEN", ""); ("AZURE_KEY", "az_y")].
Definition env_empty : Environ := [("GITHUB_TOKEN", ""); ("AZURE_KEY", "")].
Definition env_unset : Environ := [("HOME", "/root")].

(** ** Streamlit session state and the authentication sidebar *)

(** [os.environ[k] = v]. *)
Fixpoint environ_set (env : Environ) (k v : string) : Environ :=
  match env with
  | [] => [(k, v)]
  | (k', v') :: rest =>
      if String.eqb k k' then (k, v) :: rest else (k', v') :: environ_set rest k v
  end.

(** The keys of [st.session_state] used by the app; [None] is a missing key. *)
Record StState := {
  st_messages : option (list Turn);
  st_authenticated : option bool;
  st_token : option string
}.

(** [init_session_state] (package [app.py], lines 20-26; top-level [app.py],
    lines 66-72). *)
Definition init_session_state (s : StState) : StState :=
  {| st_messages := Some (match st_messages s with Some m => m | None => [] end);
     st_authenticated := Some (match st_authenticated s with Some b => b | None => false end);
     st_token := st_token s |}.

(** [st.session_state.authenticated], read after [init_session_state]. *)
Definition authenticated (s : StState) : bool :=
  match st_authenticated s with Some b => b | None => false end.

Definition set_auth (s : StState) (b : bool) (token : option string) : StState :=
  {| st_messages := st_messages s; st_authenticated := Some b; st_token := token |}.

(** The widgets of the sidebar in one run: the text typed in the token box
    and the two buttons ([st.button] is True only in the run of the click). *)
Record SidebarInput := {
  token_text : string;
  connect_clicked : bool;
  disconnect_clicked : bool
}.

Definition no_clicks : SidebarInput :=
  {| token_text := ""; connect_clicked := false; disconnect_clicked := false |}.

Definition click_connect (t : string) : SidebarInput :=
  {| token_text := t; connect_clicked := true; disconnect_clicked := false |}.

Definition click_disconnect : SidebarInput :=
  {| token_text := ""; connect_clicked := false; disconnect_clicked := true |}.

(** How the sidebar ends: [st.experimental_rerun()] stops the run, or the
    script goes on to the chat. *)
Inductive SidebarEnd : Type :=
| SRerun : Environ -> StState -> SidebarEnd
| SContinue : Environ -> StState -> SidebarEnd.

Definition sidebar_state (e : SidebarEnd) : StState :=
  match e with
  | SRerun _ s => s
  | SContinue _ s => s
  end.

(** The login form and the Disconnect button, common to both apps. *)
Definition sidebar_buttons (env : Environ) (s : StState) (inp : SidebarInput)
  : SidebarEnd :=
  if negb (authenticated s) then
    if connect_clicked inp then
      if truthy_str (Some (token_text inp))
      then SRerun (environ_set env "GITHUB_TOKEN" (token_text inp))
                  (set_auth s true (Some (token_text inp)))
      else SContinue env s
    else SContinue env s
  else if disconnect_clicked inp then SRerun env (set_auth s false None)
  else SContinue env s.

(** Package [app.py], lines 36-81: [init_session_state], the check of the
    environment token, then the login form or the Disconnect button. *)
Definition app_sidebar (env : Environ) (s : StState) (inp : SidebarInput)
  : SidebarEnd :=
  let s1 := init_session_state s in
  let env_token := get_token_from_env env in
  let s2 := if andb (truthy_str env_token) (negb (authenticated s1))
            then set_auth s1 true env_token else s1 in
  sidebar_buttons env s2 inp.

(** Top-level [app.py], lines 76-121: the same without the environment
    check. *)
Definition root_sidebar (env : Environ) (s : StState) (inp : SidebarInput)
  : SidebarEnd :=
  sidebar_buttons env (init_session_state s) inp.

(** ** The top-level [app.py] *)

(** [DeepSeekChatbot.get_response] of the top-level [app.py], lines 41-63:
    [max_tokens=1000]; an exception is reported with [st.error] and the
    method returns [None]. *)
Definition root_get_response_stream (chatbot : Client) (messages : list ApiMessage)
  : option Stream :=
  match complete_stream chatbot messages 1000%Z with
  | Raises => None
  | Returns response => response
  end.

Definition root_get_response_block (chatbot : Client) (messages : list ApiMessage)
  : option Response :=
  match complete_block chatbot messages 1000%Z with
  | Raises => None
  | Returns response => response
  end.

(** Top-level [app.py], lines 144-216. The assembly of [final_response]
    (lines 167-213) is the same text as in the package app; building the
    API messages (lines 155-160) is outside the [try] of [get_response]. *)
Definition root_main_chat (chatbot : Client) (streaming_enabled : bool)
    (user_input : option string) (messages : list Turn) : Outcome :=
  if truthy_str user_input then
    let messages1 := (messages ++ [user_turn (or_empty user_input)])%list in
    match prepare_api_messages messages1 with
    | None => Raised messages1
    | Some api_messages =>
      let final_response :=
        if streaming_enabled
        then app_stream_response (root_get_response_stream chatbot api_messages)
        else app_block_response (root_get_response_block chatbot api_messages) in
      Finished (messages1 ++ [assistant_turn final_response])%list
    end
  else Finished messages.

(** Whether the remote call of the chosen mode raises, at max_tokens 1000. *)
Definition call_raises (chatbot : Client) (streaming_enabled : bool)
    (req : list ApiMessage) : bool :=
  if streaming_enabled
  then match complete_stream chatbot req 1000%Z with Raises => true | _ => false end
  else match complete_block chatbot req 1000%Z with Raises => true | _ => false end.

(** ** [cli.py], [main] *)

(** The parsed arguments: [prompt] (optional), [--stream], [--interactive]. *)
Record CliArgs := {
  arg_prompt : option string;
  arg_stream : bool;
  arg_interactive : bool
}.

(** How [main] ends: help printed, the interactive loop, or one query and
    what [main] prints after it ([print(response)] prints [str(response)]). *)
Inductive CliMain : Type :=
| MHelp : CliMain
| MInteractive : list (QueryOutcome (option string)) -> CliMain
| MPrompt : QueryOutcome (option string) -> option string -> CliMain.

(** [cli.py], lines 84-116; [inputs] are the lines read in interactive
    mode. *)
Definition cli_main (env : Environ) (chatbot : Client) (args : CliArgs)
    (inputs : list string) : CliMain :=
  if arg_interactive args then MInteractive (cli_interactive env chatbot inputs)
  else if truthy_str (arg_prompt args) then
    let response := cli_query_deepseek env chatbot (or_empty (arg_prompt args)) (arg_stream args) in
    match response with
    | QReturn v => MPrompt response (if arg_stream args then None else Some (py_str v))
    | QExit c => MPrompt response None
    end
  else MHelp.

(** ** Shapes of a session *)

(** Entries whose role the app sends. *)
Definition is_chat_role (t : Turn) : bool :=
  orb (String.eqb (role t) "user") (String.eqb (role t) "assistant").

(** Every entry is a user or assistant entry, and every assistant entry
    comes right after a user entry ([prev_is_user] tells whether the entry
    before is a user entry). *)
Fixpoint replies_follow_prompts (prev_is_user : bool) (l : list Turn) : bool :=
  match l with
  | [] => true
  | t :: rest =>
      if String.eqb (role t) "user" then replies_follow_prompts true rest
      else if String.eqb (role t) "assistant"
      then andb prev_is_user (replies_follow_prompts false rest)
      else false
  end.

(** ** Examples *)

Example main_chat_paris :
  main_chat (fixed_client "Paris." []) false 1000 (Some "What is the capital of France?") []
  = Finished [user_turn "What is the capital of France?"; assistant_turn (Some "Paris.")].
Proof. reflexivity. Qed.

Example cli_interactive_echo :
  cli_interactive env_github echo_first_client ["Hi"; "Again"; "EXIT"; "later"]
  = [QReturn (Some "Hi"); QReturn (Some "Again")].
Proof. reflexivity. Qed.

(** ** General facts *)

Lemma truthy_str_some (u : string) : u <> "" -> truthy_str (Some u) = true.
Proof.
  intros H. unfold truthy_str. apply String.eqb_neq in H. rewrite H. reflexivity.
Qed.

(** The run of [main] on a non-empty input whose request is built. *)
Lemma main_chat_submit (chatbot : Client) (streaming_enabled : bool) (max_tokens : Z)
    (u : string) (messages : list Turn) (api_messages : list ApiMessage) :
  u <> "" ->
  prepare_api_messages (messages ++ [user_turn u])%list = Some api_messages ->
  main_chat chatbot streaming_enabled max_tokens (Some u) messages =
  let messages1 := (messages ++ [user_turn u])%list in
  match (if streaming_enabled then
           match complete_stream chatbot api_messages max_tokens with
           | Raises => None
           | Returns response => Some (app_stream_response response)
           end
         else
           match complete_block chatbot api_messages max_tokens with
           | Raises => None
           | Returns response => Some (app_block_response response)
           end) with
  | None => Raised messages1
  | Some f => Finished (messages1 ++ [assistant_turn f])%list
  end.
Proof.
  intros H Hp. unfold main_chat. rewrite (truthy_str_some u H).
  change (or_empty (Some u)) with u. cbv zeta. rewrite Hp. reflexivity.
Qed.


(** The request is built when no user or assistant entry has [None]
    content: it is then the wire messages of those entries, in order. *)
Lemma prepare_api_messages_ok (messages : list Turn) :
  Forall (fun t => is_chat_role t = true -> content t <> None) messages ->
  prepare_api_messages messages = Some (map turn_to_api (filter is_chat_role messages)).
Proof.
  induction 1 as [|t rest Ht _ IH]; [reflexivity|].
  revert Ht. simpl. unfold is_chat_role, turn_to_api.
  destruct (String.eqb (role t) "user") eqn:E1; simpl; intros Ht.
  - rewrite E1. destruct (content t) as [c|]; [|exfalso; apply Ht; reflexivity].
    rewrite IH. reflexivity.
  - destruct (String.eqb (role t) "assistant") eqn:E2; simpl; [|exact IH].
    rewrite E1. destruct (content t) as [c|]; [|exfalso; apply Ht; reflexivity].
    rewrite IH. reflexivity.
Qed.

(** A user or assistant entry with [None] content makes building the
    request raise. *)
Lemma prepare_api_messages_none (messages : list Turn) :
  Exists (fun t => is_chat_role t = true /\ content t = None) messages ->
  prepare_api_messages messages = None.
Proof.
  induction 1 as [t rest [Hr Hc]|t rest _ IH]; simpl.
  - unfold is_chat_role in Hr. rewrite Hc.
    destruct (String.eqb (role t) "user") eqn:E1; [reflexivity|].
    simpl in Hr. rewrite Hr. reflexivity.
  - rewrite IH.
    destruct (String.eqb (role t) "user"); [destruct (content t); reflexivity|].
    destruct (String.eqb (role t) "assistant"); [destruct (content t)|]; reflexivity.
Qed.

(** The request of a run on [u] over a session whose user and assistant
    entries all have string content. *)
Lemma prepare_api_messages_submit (messages : list Turn) (u : string) :
  Forall (fun t => is_chat_role t = true -> content t <> None) messages ->
  prepare_api_messages (messages ++ [user_turn u])%list =
  Some (map turn_to_api (filter is_chat_role messages) ++ [UserMessage (Some u)])%list.
Proof.
  intros H. rewrite prepare_api_messages_ok.
  - rewrite filter_app, map_app. reflexivity.
  - apply Forall_app. split; [exact H|]. constructor; [discriminate|constructor].
Qed.



(** ** C1 *)

(** C1 (code_bug). The turn-count invariant fails when the call to
    [get_response] itself raises (a transport error on connecting): the call
    is outside the [try] of the stream loop, so the exception leaves [main]
    after the user entry was appended, and the session grows by 1. *)
Theorem C1_call_raises_grows_by_one :
  main_chat failing_client true 1000 (Some "Hello") [] = Raised [user_turn "Hello"] /\
  length (outcome_messages (main_chat failing_client true 1000 (Some "Hello") [])) = 1 /\
  main_chat failing_client false 1000 (Some "Hello") [] = Raised [user_turn "Hello"].
Proof. repeat split; reflexivity. Qed.

(** ** C3 *)



(** ** C4 *)

(** C4. When iterating the stream raises after any number of chunks, the
    assistant entry committed is the fallback string; the text accumulated
    from those chunks is dropped. (A streaming call is made only once the
    request is built.) *)
Theorem C4_stream_failure_commits_fallback (chatbot : Client) (max_tokens : Z)
    (u : string) (messages : list Turn) (req : list ApiMessage) (chunks : list Chunk) :
  u <> "" ->
  prepare_api_messages (messages ++ [user_turn u])%list = Some req ->
  complete_stream chatbot req max_tokens
    = Returns (Some {| stream_chunks := chunks; stream_raises := true |}) ->
  main_chat chatbot true max_tokens (Some u) messages =
  Finished (messages ++ [user_turn u; assistant_turn (Some error_message)])%list.
Proof.
  intros Hu Hp Hc. rewrite (main_chat_submit _ _ _ _ _ _ Hu Hp). cbv zeta.
  rewrite Hc. simpl. rewrite <- app_assoc. reflexivity.
Qed.

(** ** C5 *)

(** C5. With a remote call answering ["Paris"] in blocking mode and the
    fragments ["Par"; "is"] in streaming mode, both modes commit an
    assistant entry ["Paris"], on any session whose user and assistant
    entries have string content (the sessions a request can be built from). *)
Theorem C5_stream_block_paris (messages : list Turn) (max_tokens : Z) :
  Forall (fun t => is_chat_role t = true -> content t <> None) messages ->
  main_chat (fixed_client "Paris" ["Par"; "is"]) false max_tokens
    (Some "What is the capital of France?") messages
  = Finished (messages ++ [user_turn "What is the capital of France?";
                           assistant_turn (Some "Paris")])%list /\
  main_chat (fixed_client "Paris" ["Par"; "is"]) true max_tokens
    (Some "What is the capital of France?") messages
  = Finished (messages ++ [user_turn "What is the capital of France?";
                           assistant_turn (Some "Paris")])%list.
Proof.
  intros Hok.
  pose proof (prepare_api_messages_submit messages "What is the capital of France?" Hok) as Hp.
  assert (Hu : "What is the capital of France?" <> "") by discriminate.
  split; rewrite (main_chat_submit _ _ _ _ _ _ Hu Hp); cbv zeta;
    simpl; rewrite <- app_assoc; reflexivity.
Qed.

(** ** C2 *)




(** ** C6 *)

Lemma string_append_assoc (a b c : string) : a ++ (b ++ c) = (a ++ b) ++ c.
Proof. induction a as [|x a IH]; simpl; [reflexivity|rewrite IH; reflexivity]. Qed.

Lemma string_append_empty_r (a : string) : a ++ "" = a.
Proof. induction a as [|x a IH]; simpl; [reflexivity|rewrite IH; reflexivity]. Qed.

Lemma app_stream_loop_app (acc s : string) (chunks : list Chunk) :
  app_stream_loop (acc ++ s) chunks = acc ++ app_stream_loop s chunks.
Proof.
  revert acc s. induction chunks as [|ch rest IH]; intros acc s; simpl.
  - reflexivity.
  - rewrite <- string_append_assoc. apply IH.
Qed.

(** C6. A chunk lacking any of [choices], [delta], [content], or whose
    content is [None], yields the empty fragment and leaves the accumulation
    of both stream loops unchanged; a stream that does not raise is never
    replaced by the fallback: its committed text is the concatenation of the
    fragments extracted. *)
Theorem C6_missing_fields_empty_fragment :
  (forall chunk,
      chunk_delta_content chunk = None ->
      app_chunk_content chunk = "" /\
      (forall acc rest, app_stream_loop acc (chunk :: rest) = app_stream_loop acc rest) /\
      (forall acc rest, cli_stream_loop acc (chunk :: rest) = cli_stream_loop acc rest)) /\
  (forall chunks,
      app_stream_response (Some {| stream_chunks := chunks; stream_raises := false |})
      = Some (String.concat "" (map app_chunk_content chunks))).
Proof.
  split.
  - intros chunk H.
    assert (E : app_chunk_content chunk = "").
    { unfold chunk_delta_content in H. unfold app_chunk_content.
      destruct (chunk_choices chunk) as [|[[|c rest]|]]; try reflexivity.
      destruct (choice_delta c) as [|[d|]]; try reflexivity.
      destruct (delta_content d) as [|[s|]]; [reflexivity|discriminate|reflexivity]. }
    split; [exact E|split].
    + intros acc rest. simpl. rewrite E, string_append_empty_r. reflexivity.
    + intros acc rest. simpl.
      unfold chunk_delta_content in H. unfold cli_chunk_guard.
      destruct (chunk_choices chunk) as [|[[|c rest']|]]; try reflexivity.
      destruct (choice_delta c) as [|[d|]]; try reflexivity.
      destruct (delta_content d) as [|[s|]]; [reflexivity|discriminate|].
      simpl. rewrite string_append_empty_r. reflexivity.
  - intros chunks. simpl. f_equal.
    induction chunks as [|ch rest IH]; [reflexivity|].
    simpl. rewrite <- (string_append_empty_r (app_chunk_content ch)) at 1.
    rewrite (app_stream_loop_app (app_chunk_content ch) "" rest), IH.
    destruct rest; simpl; [apply string_append_empty_r|reflexivity].
Qed.

(** ** C7 *)




(** ** C8 *)

(** C8. [GITHUB_TOKEN] is read first: when it is set and non-empty its value
    is returned; when it is unset or empty the value of [AZURE_KEY] is
    returned, so a non-empty [AZURE_KEY] wins then; when neither is set the
    result is [None], and whenever both are unset or empty the result is
    falsy and both CLI entry points exit with status 1. *)
Theorem C8_token_precedence (env : Environ) :
  (forall g, environ_get env "GITHUB_TOKEN" = Some g -> g <> "" ->
     get_token_from_env env = Some g) /\
  ((environ_get env "GITHUB_TOKEN" = None \/ environ_get env "GITHUB_TOKEN" = Some "") ->
     get_token_from_env env = environ_get env "AZURE_KEY") /\
  (environ_get env "GITHUB_TOKEN" = None -> environ_get env "AZURE_KEY" = None ->
     get_token_from_env env = None) /\
  ((environ_get env "GITHUB_TOKEN" = None \/ environ_get env "GITHUB_TOKEN" = Some "") ->
   (environ_get env "AZURE_KEY" = None \/ environ_get env "AZURE_KEY" = Some "") ->
     truthy_str (get_token_from_env env) = false /\
     (forall chatbot prompt stream, cli_query_deepseek env chatbot prompt stream = QExit 1%Z) /\
     (forall client prompt stream, legacy_query_deepseek env client prompt stream = QExit 1%Z)).
Proof.
  assert (Hnot : (environ_get env "GITHUB_TOKEN" = None \/ environ_get env "GITHUB_TOKEN" = Some "") ->
                 get_token_from_env env = environ_get env "AZURE_KEY").
  { intros [H|H]; unfold get_token_from_env, py_or; rewrite H; reflexivity. }
  split; [|split; [exact Hnot|split]].
  - intros g H Hg. unfold get_token_from_env, py_or.
    rewrite H, (truthy_str_some g Hg). reflexivity.
  - intros Hg Ha. rewrite Hnot by (left; exact Hg). exact Ha.
  - intros Hg Ha.
    assert (Hf : truthy_str (get_token_from_env env) = false).
    { rewrite (Hnot Hg). destruct Ha as [-> | ->]; reflexivity. }
    split; [exact Hf|split].
    + intros chatbot prompt stream. unfold cli_query_deepseek. rewrite Hf. reflexivity.
    + intros client prompt stream. unfold legacy_query_deepseek, get_credentials.
      fold (get_token_from_env env). rewrite Hf. reflexivity.
Qed.

(** ** C9 *)

(** C9. On a stream that does not raise, the loop of [app.py] (adding [""]
    when the guard fails) and the loop of [cli.py] (adding only inside the
    guard) accumulate the same string, from any starting accumulation. *)
Theorem C9_stream_loops_agree (chunks : list Chunk) (acc : string) :
  app_stream_loop acc chunks = cli_stream_loop acc chunks.
Proof.
  revert acc. induction chunks as [|chunk rest IH]; intros acc; [reflexivity|].
  simpl. rewrite IH. unfold app_chunk_content, cli_chunk_guard.
  destruct (chunk_choices chunk) as [|[[|c rest']|]];
    try (rewrite string_append_empty_r; reflexivity).
  destruct (choice_delta c) as [|[d|]];
    try (rewrite string_append_empty_r; reflexivity).
  destruct (delta_content d); [rewrite string_append_empty_r|]; reflexivity.
Qed.

(** ** C10 *)

(** C10. [get_token_from_env] returns [None] exactly when [GITHUB_TOKEN] is
    unset or empty and [AZURE_KEY] is unset; with both set to the empty
    string it returns [""]. *)
Theorem C10_token_none_iff (env : Environ) :
  (get_token_from_env env = None <->
   (environ_get env "GITHUB_TOKEN" = None \/ environ_get env "GITHUB_TOKEN" = Some "") /\
   environ_get env "AZURE_KEY" = None) /\
  (environ_get env "GITHUB_TOKEN" = Some "" -> environ_get env "AZURE_KEY" = Some "" ->
   get_token_from_env env = Some "").
Proof.
  unfold get_token_from_env, py_or.
  split.
  - destruct (environ_get env "GITHUB_TOKEN") as [g|].
    + unfold truthy_str. destruct (String.eqb_spec g "") as [->|Hg]; simpl.
      * split; [intros H; split; [right; reflexivity|exact H]|intros [_ H]; exact H].
      * split; [discriminate|].
        intros [[H|H] _]; [discriminate|injection H; intros; contradiction].
    + simpl. split; [intros H; split; [left; reflexivity|exact H]|intros [_ H]; exact H].
  - intros Hg Ha. rewrite Hg. exact Ha.
Qed.

(** ** Witnesses *)


Lemma C4_stream_failure_commits_fallback_witness :
  "Hi" <> "" /\
  main_chat broken_client true 1000 (Some "Hi") [] =
    Finished [user_turn "Hi"; assistant_turn (Some error_message)].
Proof.
  split; [discriminate|].
  apply (C4_stream_failure_commits_fallback broken_client 1000%Z "Hi" []
           [UserMessage (Some "Hi")] [text_chunk "Par"]);
    [discriminate|reflexivity|reflexivity].
Defined.

Lemma C5_stream_block_paris_witness :
  main_chat (fixed_client "Paris" ["Par"; "is"]) true 1000
    (Some "What is the capital of France?") [user_turn "Hi"; assistant_turn (Some "Hello")]
  = Finished [user_turn "Hi"; assistant_turn (Some "Hello");
              user_turn "What is the capital of France?"; assistant_turn (Some "Paris")].
Proof.
  apply (C5_stream_block_paris [user_turn "Hi"; assistant_turn (Some "Hello")] 1000%Z).
  constructor; [discriminate|constructor; [discriminate|constructor]].
Defined.

Lemma C6_missing_fields_empty_fragment_witness :
  chunk_delta_content null_delta_chunk = None /\
  app_stream_loop "Par" [null_delta_chunk; text_chunk "is"] =
  app_stream_loop "Par" [text_chunk "is"].
Proof.
  split; [vm_compute; reflexivity|].
  apply (proj1 (proj2 (proj1 C6_missing_fields_empty_fragment null_delta_chunk eq_refl))).
Defined.


Lemma C8_token_precedence_witness :
  get_token_from_env env_both = Some "ghp_x" /\
  get_token_from_env env_azure = Some "az_y" /\
  get_token_from_env env_unset = None /\
  cli_query_deepseek env_empty failing_client "q" true = QExit 1%Z.
Proof.
  split; [|split; [|split]].
  - apply (proj1 (C8_token_precedence env_both) "ghp_x"); [reflexivity|discriminate].
  - apply (proj1 (proj2 (C8_token_precedence env_azure))). right; reflexivity.
  - apply (proj1 (proj2 (proj2 (C8_token_precedence env_unset)))); reflexivity.
  - apply (proj1 (proj2 (proj2 (proj2 (proj2 (C8_token_precedence env_empty)))
                               (or_intror eq_refl) (or_intror eq_refl)))).
Defined.

Lemma C10_token_none_iff_witness :
  get_token_from_env env_empty = Some "" /\ get_token_from_env env_empty <> None.
Proof.
  assert (H : get_token_from_env env_empty = Some "").
  { apply (proj2 (C10_token_none_iff env_empty)); reflexivity. }
  split; [exact H|rewrite H; discriminate].
Defined.

(** ** Further properties of the code *)

Lemma environ_get_set_same (env : Environ) (k v : string) :
  environ_get (environ_set env k v) k = Some v.
Proof.
  induction env as [|[k' v'] rest IH]; simpl.
  - rewrite String.eqb_refl. reflexivity.
  - destruct (String.eqb_spec k k') as [->|Hne]; simpl.
    + rewrite String.eqb_refl. reflexivity.
    + apply String.eqb_neq in Hne. rewrite Hne. exact IH.
Qed.

(** The request of a run on [u]: when no user or assistant entry of the
    session has [None] content, it is those entries in order, any other
    entry left out, then the new user text; when one has [None] content,
    building it raises. *)
Theorem request_is_history_then_prompt (messages : list Turn) (u : string) :
  (Forall (fun t => is_chat_role t = true -> content t <> None) messages ->
   prepare_api_messages (messages ++ [user_turn u])%list =
   Some (map turn_to_api (filter is_chat_role messages) ++ [UserMessage (Some u)])%list) /\
  (Exists (fun t => is_chat_role t = true /\ content t = None) messages ->
   prepare_api_messages (messages ++ [user_turn u])%list = None).
Proof.
  split.
  - apply prepare_api_messages_submit.
  - intros H. apply prepare_api_messages_none, Exists_app. left. exact H.
Qed.

Lemma replies_follow_prompts_app_user (l : list Turn) (b : bool) (u : string)
    (rest : list Turn) :
  replies_follow_prompts b l = true ->
  replies_follow_prompts true rest = true ->
  replies_follow_prompts b (l ++ user_turn u :: rest)%list = true.
Proof.
  revert b. induction l as [|t l IH]; intros b Hl Hr; simpl; [exact Hr|].
  simpl in Hl. destruct (String.eqb (role t) "user"); [apply IH; assumption|].
  destruct (String.eqb (role t) "assistant"); [|discriminate].
  apply andb_true_iff in Hl as [Hb Hl]. rewrite Hb. simpl. apply IH; assumption.
Qed.

(** Every session reached by runs of the package app holds only user and
    assistant entries, starts with a user entry when it is not empty, and
    has each assistant entry right after a user entry. *)
Theorem reachable_replies_follow_prompts (messages : list Turn) :
  reachable messages -> replies_follow_prompts false messages = true.
Proof.
  intros H. induction H as [|chatbot streaming_enabled max_tokens user_input messages _ IH];
    [reflexivity|].
  unfold main_chat. destruct (truthy_str user_input); [|exact IH].
  destruct (prepare_api_messages _);
    [|simpl; apply replies_follow_prompts_app_user; [assumption|reflexivity]].
  destruct streaming_enabled;
    [destruct (complete_stream _ _ _)|destruct (complete_block _ _ _)]; simpl;
    rewrite <- ?app_assoc; simpl;
    apply replies_follow_prompts_app_user; try assumption; reflexivity.
Qed.

(** The top-level app lets no exception of the remote call out of a run:
    when no user or assistant entry of the session has [None] content, a run
    on a non-empty input appends exactly one user entry and one assistant
    entry, whose content is the fallback string when the remote call
    raises. Building the request is outside that [try]: when an entry has
    [None] content, the run ends in an exception after appending the user
    entry. *)
Theorem root_main_chat_two_turns (chatbot : Client) (streaming_enabled : bool)
    (u : string) (messages : list Turn) :
  u <> "" ->
  (Forall (fun t => is_chat_role t = true -> content t <> None) messages ->
   exists f,
     root_main_chat chatbot streaming_enabled (Some u) messages =
     Finished (messages ++ [user_turn u; assistant_turn f])%list /\
     (call_raises chatbot streaming_enabled
        (map turn_to_api (filter is_chat_role messages) ++ [UserMessage (Some u)])%list = true ->
      f = Some error_message)) /\
  (Exists (fun t => is_chat_role t = true /\ content t = None) messages ->
   root_main_chat chatbot streaming_enabled (Some u) messages =
   Raised (messages ++ [user_turn u])%list).
Proof.
  intros Hu. unfold root_main_chat. rewrite (truthy_str_some u Hu).
  change (or_empty (Some u)) with u. cbv zeta. split.
  - intros Hok. rewrite (prepare_api_messages_submit _ _ Hok).
    eexists. split; [rewrite <- app_assoc; reflexivity|].
    unfold call_raises, root_get_response_stream, root_get_response_block.
    destruct streaming_enabled;
      [destruct (complete_stream _ _ _)|destruct (complete_block _ _ _)];
      simpl; first [reflexivity|discriminate].
  - intros Hex. rewrite prepare_api_messages_none; [reflexivity|].
    apply Exists_app. left. exact Hex.
Qed.

Lemma sidebar_buttons_messages (env : Environ) (s : StState) (inp : SidebarInput) :
  st_messages (sidebar_state (sidebar_buttons env s inp)) = st_messages s.
Proof.
  unfold sidebar_buttons.
  repeat match goal with |- context [if ?b then _ else _] => destruct b end;
    reflexivity.
Qed.

(** A run of the sidebar, in either app, never touches the conversation:
    the message list afterwards is the one held before ([[]] when the key was
    missing); Connect and Disconnect keep it. *)
Theorem sidebar_keeps_messages (env : Environ) (s : StState) (inp : SidebarInput) :
  st_messages (sidebar_state (app_sidebar env s inp)) =
    Some (match st_messages s with Some m => m | None => [] end) /\
  st_messages (sidebar_state (root_sidebar env s inp)) =
    Some (match st_messages s with Some m => m | None => [] end).
Proof.
  split.
  - unfold app_sidebar. rewrite sidebar_buttons_messages.
    destruct (andb _ _); reflexivity.
  - unfold root_sidebar. rewrite sidebar_buttons_messages. reflexivity.
Qed.

(** Package app: Connect stores the typed token in [GITHUB_TOKEN] of the
    process environment, so after Connect and Disconnect the next run reads
    it back and is authenticated again with the same token. *)
Theorem app_disconnect_reauthenticates (env : Environ) (s : StState) (t : string) :
  t <> "" ->
  truthy_str (get_token_from_env env) = false ->
  authenticated (init_session_state s) = false ->
  exists env1 s1 s2 s3,
    app_sidebar env s (click_connect t) = SRerun env1 s1 /\
    get_token_from_env env1 = Some t /\
    app_sidebar env1 s1 click_disconnect = SRerun env1 s2 /\
    authenticated s2 = false /\
    app_sidebar env1 s2 no_clicks = SContinue env1 s3 /\
    authenticated s3 = true /\ st_token s3 = Some t.
Proof.
  intros Ht Htok Hauth.
  assert (E1 : get_token_from_env (environ_set env "GITHUB_TOKEN" t) = Some t).
  { unfold get_token_from_env, py_or. rewrite environ_get_set_same, (truthy_str_some t Ht).
    reflexivity. }
  do 4 eexists.
  unfold app_sidebar at 1. rewrite Htok. simpl andb. cbv iota beta.
  unfold sidebar_buttons at 1. rewrite Hauth. simpl negb. cbv iota beta.
  cbn [click_connect connect_clicked token_text]. rewrite (truthy_str_some t Ht).
  cbv iota beta.
  split; [reflexivity|]. split; [exact E1|].
  unfold app_sidebar at 1. rewrite E1, (truthy_str_some t Ht). simpl.
  split; [reflexivity|]. split; [reflexivity|].
  unfold app_sidebar. rewrite E1, (truthy_str_some t Ht). simpl.
  repeat split.
Qed.

(** Package app: while the environment holds a token, every run that goes
    on to the chat is authenticated. *)
Theorem app_env_token_forces_auth (env : Environ) (s : StState) (inp : SidebarInput)
    (env' : Environ) (s' : StState) :
  truthy_str (get_token_from_env env) = true ->
  app_sidebar env s inp = SContinue env' s' ->
  authenticated s' = true.
Proof.
  intros Htok Hrun. unfold app_sidebar in Hrun. rewrite Htok in Hrun. simpl in Hrun.
  destruct (authenticated (init_session_state s)) eqn:Ea; simpl in Hrun;
    unfold sidebar_buttons in Hrun; simpl in Hrun; rewrite ?Ea in Hrun; simpl in Hrun;
    destruct (disconnect_clicked inp); try discriminate;
    injection Hrun; intros <- _; [exact Ea|reflexivity].
Qed.

(** Top-level app: Disconnect logs out for good; the next run shows the
    login form, with no token kept. *)
Theorem root_disconnect_logs_out (env : Environ) (s : StState) :
  authenticated (init_session_state s) = true ->
  exists s1 s2,
    root_sidebar env s click_disconnect = SRerun env s1 /\
    root_sidebar env s1 no_clicks = SContinue env s2 /\
    authenticated s2 = false /\ st_token s2 = None.
Proof.
  intros Ha. do 2 eexists. unfold root_sidebar at 1, sidebar_buttons at 1.
  rewrite Ha. simpl. split; [reflexivity|]. split; [reflexivity|]. split; reflexivity.
Qed.

(** CLI interactive mode: the prompt argument and [--stream] are ignored,
    and nothing typed after a line that reads exit or quit (in any case) is
    sent or has any effect. *)
Theorem cli_main_stops_at_exit (env : Environ) (chatbot : Client) (args args' : CliArgs)
    (pre : list string) (x : string) (rest rest' : list string) :
  arg_interactive args = true -> arg_interactive args' = true ->
  orb (String.eqb (lower x) "exit") (String.eqb (lower x) "quit") = true ->
  cli_main env chatbot args (pre ++ x :: rest)%list =
  cli_main env chatbot args' (pre ++ x :: rest')%list.
Proof.
  intros H1 H2 Hx. unfold cli_main. rewrite H1, H2. f_equal.
  induction pre as [|a pre IH]; simpl; [rewrite Hx; reflexivity|].
  destruct (orb (String.eqb (lower a) "exit") (String.eqb (lower a) "quit"));
    [reflexivity|].
  destruct (cli_query_deepseek env chatbot a true); [rewrite IH|]; reflexivity.
Qed.

(** CLI interactive mode without a token: the first line that is not exit
    or quit ends the process with status 1. *)
Theorem cli_interactive_no_token_exits (env : Environ) (chatbot : Client)
    (x : string) (rest : list string) :
  truthy_str (get_token_from_env env) = false ->
  orb (String.eqb (lower x) "exit") (String.eqb (lower x) "quit") = false ->
  cli_interactive env chatbot (x :: rest) = [QExit 1%Z].
Proof.
  intros Htok Hx. simpl. rewrite Hx. unfold cli_query_deepseek. rewrite Htok. reflexivity.
Qed.

(** CLI one-shot blocking mode: when the response is [None], lacks the
    fields or has a [None] content, [query_deepseek] returns [None] and
    [main] prints the text ["None"]. *)
Theorem cli_main_prints_None (env : Environ) (chatbot : Client) (p : string)
    (r : option Response) (inputs : list string) :
  truthy_str (get_token_from_env env) = true ->
  p <> "" ->
  complete_block chatbot [UserMessage (Some p)] 1000 = Returns r ->
  match r with
  | None => True
  | Some r' => response_message_content r' = None \/ response_message_content r' = Some None
  end ->
  cli_main env chatbot {| arg_prompt := Some p; arg_stream := false; arg_interactive := false |}
    inputs = MPrompt (QReturn None) (Some "None").
Proof.
  intros Htok Hp Hc Hr. unfold cli_main. simpl arg_interactive. cbv iota.
  simpl arg_prompt. rewrite (truthy_str_some p Hp). simpl.
  unfold cli_query_deepseek. rewrite Htok. simpl. rewrite Hc.
  destruct r as [r'|]; [|reflexivity].
  unfold response_message_content in Hr. revert Hr.
  destruct (response_choices r') as [|[[|c l]|]]; try reflexivity.
  destruct (choice_message c) as [|[m|]]; try reflexivity.
  destruct (message_content m) as [|[s|]]; try reflexivity.
  intros [H|H]; discriminate.
Qed.

(** ** Witnesses of the further properties *)

Lemma reachable_replies_follow_prompts_witness :
  replies_follow_prompts false
    (outcome_messages (main_chat echo_first_client true 1000 (Some "Hi") [])) = true.
Proof.
  apply reachable_replies_follow_prompts.
  apply (reachable_run echo_first_client true 1000%Z (Some "Hi") [] reachable_nil).
Defined.

Lemma request_is_history_then_prompt_witness :
  prepare_api_messages [user_turn "Hi"; assistant_turn (Some "Hello"); user_turn "Again"] =
    Some [UserMessage (Some "Hi"); AssistantMessage (Some "Hello"); UserMessage (Some "Again")] /\
  prepare_api_messages [user_turn "Hi"; assistant_turn None; user_turn "Again"] = None.
Proof.
  split.
  - apply (proj1 (request_is_history_then_prompt
                    [user_turn "Hi"; assistant_turn (Some "Hello")] "Again")).
    constructor; [discriminate|constructor; [discriminate|constructor]].
  - apply (proj2 (request_is_history_then_prompt [user_turn "Hi"; assistant_turn None] "Again")).
    right; left; split; reflexivity.
Defined.

Lemma root_main_chat_two_turns_witness :
  root_main_chat failing_client true (Some "Hi") [] =
    Finished [user_turn "Hi"; assistant_turn (Some error_message)] /\
  root_main_chat failing_client true (Some "Again") [user_turn "Hi"; assistant_turn None] =
    Raised [user_turn "Hi"; assistant_turn None; user_turn "Again"].
Proof.
  assert (Hu : "Hi" <> "") by discriminate.
  assert (Ha : "Again" <> "") by discriminate.
  split.
  - destruct (proj1 (root_main_chat_two_turns failing_client true "Hi" [] Hu) (Forall_nil _))
      as [f [E H]].
    rewrite E, (H eq_refl). reflexivity.
  - apply (proj2 (root_main_chat_two_turns failing_client true "Again"
                    [user_turn "Hi"; assistant_turn None] Ha)).
    right; left; split; reflexivity.
Defined.

Lemma app_disconnect_reauthenticates_witness :
  exists env1 s1 s2 s3,
    app_sidebar env_unset {| st_messages := None; st_authenticated := None; st_token := None |}
      (click_connect "tok") = SRerun env1 s1 /\
    get_token_from_env env1 = Some "tok" /\
    app_sidebar env1 s1 click_disconnect = SRerun env1 s2 /\
    authenticated s2 = false /\
    app_sidebar env1 s2 no_clicks = SContinue env1 s3 /\
    authenticated s3 = true /\ st_token s3 = Some "tok".
Proof.
  apply (app_disconnect_reauthenticates env_unset
           {| st_messages := None; st_authenticated := None; st_token := None |} "tok");
    [discriminate|reflexivity|reflexivity].
Defined.

Lemma app_env_token_forces_auth_witness :
  authenticated (sidebar_state
    (app_sidebar env_github {| st_messages := None; st_authenticated := None; st_token := None |}
       no_clicks)) = true.
Proof.
  apply (app_env_token_forces_auth env_github
           {| st_messages := None; st_authenticated := None; st_token := None |}
           no_clicks env_github); reflexivity.
Defined.

Lemma root_disconnect_logs_out_witness :
  exists s1 s2,
    root_sidebar env_github {| st_messages := Some []; st_authenticated := Some true;
                               st_token := Some "tok" |} click_disconnect = SRerun env_github s1 /\
    root_sidebar env_github s1 no_clicks = SContinue env_github s2 /\
    authenticated s2 = false /\ st_token s2 = None.
Proof.
  apply (root_disconnect_logs_out env_github
           {| st_messages := Some []; st_authenticated := Some true; st_token := Some "tok" |}).
  reflexivity.
Defined.

Lemma cli_main_stops_at_exit_witness :
  cli_main env_github echo_first_client
    {| arg_prompt := Some "x"; arg_stream := true; arg_interactive := true |}
    ["Hi"; "Quit"; "more"] =
  cli_main env_github echo_first_client
    {| arg_prompt := None; arg_stream := false; arg_interactive := true |}
    ["Hi"; "Quit"].
Proof.
  apply (cli_main_stops_at_exit env_github echo_first_client
           {| arg_prompt := Some "x"; arg_stream := true; arg_interactive := true |}
           {| arg_prompt := None; arg_stream := false; arg_interactive := true |}
           ["Hi"] "Quit" ["more"] []); reflexivity.
Defined.

Lemma cli_interactive_no_token_exits_witness :
  cli_interactive env_empty echo_first_client ["Hi"; "exit"] = [QExit 1%Z].
Proof.
  apply (cli_interactive_no_token_exits env_empty echo_first_client "Hi" ["exit"]);
    reflexivity.
Defined.

Lemma cli_main_prints_None_witness :
  cli_main env_github broken_client
    {| arg_prompt := Some "q"; arg_stream := false; arg_interactive := false |} [] =
  MPrompt (QReturn None) (Some "None").
Proof.
  apply (cli_main_prints_None env_github broken_client "q"
           (Some {| response_choices := Absent |}) []);
    [reflexivity|discriminate|reflexivity|left; reflexivity].
Defined.
